(** * Shallow embedding of the FSx ONTAP Storage Virtual Machine data source

    Source: internal/service/fsx/ontap_storage_virtual_machine_data_source.go
    (functions [dataSourceONTAPStorageVirtualMachineRead] and
    [flattenLifecycleTransitionReason]). *)

From stdpp Require Import base gmap sets list strings.
From Stdlib Require Import Lia.

Open Scope string_scope.

(** ** Go values used by the flattener *)

(** A location of a Go [map[string]interface{}] allocated by [make]. *)
Abbreviation loc := nat (only parsing).

(** The Go heap, restricted to the maps the flattener allocates. The values
    stored in these maps are always strings ([aws.StringValue]). *)
Record Heap := mkHeap { hmaps : gmap loc (gmap string string) }.

(** [make(map[string]interface{})]: a fresh, empty map. *)
Definition make_map (h : Heap) : loc * Heap :=
  let l := fresh (dom (hmaps h)) in
  (l, mkHeap (<[l := ∅]> (hmaps h))).

(** [m[k] = v] on the map at [l]. *)
Definition map_store (l : loc) (k v : string) (h : Heap) : Heap :=
  match hmaps h !! l with
  | Some m => mkHeap (<[l := <[k := v]> m]> (hmaps h))
  | None => h
  end.

(** A Go slice [[]interface{}] whose elements are map references:
    [None] is the nil slice, [Some xs] a non-nil slice. *)
Abbreviation GoSlice := (option (list loc)) (only parsing).

(** Types of the AWS SDK package [fsx] that the flattener reads. *)
Module fsx.
(** [fsx.LifecycleTransitionReason]: a struct with one optional field. *)
Record LifecycleTransitionReason := mkLifecycleTransitionReason
  { Message : option string }.

(** [fsx.StorageVirtualMachineFilter]: a filter name and its values. *)
Record StorageVirtualMachineFilter := mkStorageVirtualMachineFilter
  { Name : option string; Values : list string }.

(** [fsx.DescribeStorageVirtualMachinesInput]; a nil slice is [None]. *)
Record DescribeStorageVirtualMachinesInput := mkDescribeStorageVirtualMachinesInput
  { StorageVirtualMachineIds : option (list string);
    Filters : option (list StorageVirtualMachineFilter) }.
End fsx.

(** [func flattenLifecycleTransitionReason(rs *fsx.LifecycleTransitionReason) []interface{}];
    the pointer argument is [option] ([None] is [nil]). *)
Definition flattenLifecycleTransitionReason (rs : option fsx.LifecycleTransitionReason)
    (h : Heap) : GoSlice * Heap :=
  match rs with
  | None => (Some [], h)                                  (* return []interface{}{} *)
  | Some r =>
      let '(m, h) := make_map h in                        (* m := make(map...) *)
      let h := match fsx.Message r with                       (* if rs.Message != nil *)
               | Some s => map_store m "message" s h      (* m["message"] = ... *)
               | None => h
               end in
      (Some [m], h)                                       (* return []interface{}{m} *)
  end.

(** The contents a slice of map references denotes in a heap: what a reader
    that follows the references (such as [d.Set]) sees. *)
Definition deref_slice (s : GoSlice) (h : Heap) : option (list (option (gmap string string))) :=
  fmap (fun xs => map (fun l => hmaps h !! l) xs) s.

(** Run the flattener and look at the value it produced. *)
Definition flatten_view (rs : option fsx.LifecycleTransitionReason) (h : Heap)
    : option (list (option (gmap string string))) :=
  let '(s, h') := flattenLifecycleTransitionReason rs h in deref_slice s h'.

(** ** Terraform plugin SDK: diagnostics and resource data *)

Inductive Severity := Error | Warning.

(** [diag.Diagnostic], reduced to the fields the handler fills. *)
Record Diagnostic := mkDiagnostic { Sev : Severity; Summary : string }.

Abbreviation Diagnostics := (list Diagnostic) (only parsing).

(** [sdkdiag.AppendErrorf(diags, format, args...)]: append one error
    diagnostic whose summary is the formatted message. *)
Definition AppendErrorf (diags : Diagnostics) (msg : string) : Diagnostics :=
  diags ++ [mkDiagnostic Error msg].

(** Values the handler passes to [d.Set], as the SDK reads them (it follows
    pointers and map references). *)
Inductive Value :=
  | VString (s : string)                                   (* string *)
  | VStringPtr (p : option string)                         (* *string *)
  | VMapList (ms : option (list (option (gmap string string))))
                                                          (* []interface{} of maps *)
  | VStringMap (m : gmap string string)                   (* map[string]string *)
  | VOther (tag : string).                                 (* a value built elsewhere *)

(** One element of the [filter] set attribute: a name and a set of values. *)
Record FilterConfig := mkFilterConfig { filter_name : string; filter_values : list string }.

(** The configuration the handler reads: [id] and the [filter] set. *)
Record Config := mkConfig { cfg_id : option string; cfg_filter : list FilterConfig }.

(** A write to the state of a [schema.ResourceData]. *)
Inductive Write :=
  | WSetId (id : string)
  | WSet (key : string) (v : Value).

(** A [*schema.ResourceData]: its configuration and the writes done so far. *)
Record ResourceData := mkResourceData { rd_config : Config; rd_writes : list Write }.

Definition rd_record (w : Write) (d : ResourceData) : ResourceData :=
  mkResourceData (rd_config d) (rd_writes d ++ [w]).

(** [d.GetOk("id")]: the configured value, reported only when it is not the
    zero value of its type (here the empty string). *)
Definition GetOk_id (d : ResourceData) : option string :=
  match cfg_id (rd_config d) with
  | Some s => if decide (s = "") then None else Some s
  | None => None
  end.

(** Modelled from the spec: [newStorageVirtualMachineFilterList], declared in
    another file of the package; it turns each configured name/value pair of
    the [filter] set into one request filter. *)
Definition newStorageVirtualMachineFilterList (s : list FilterConfig)
    : list fsx.StorageVirtualMachineFilter :=
  map (fun f => fsx.mkStorageVirtualMachineFilter (Some (filter_name f)) (filter_values f)) s.

(** [len] of a Go slice: a nil slice has length 0. *)
Definition go_len {A} (s : option (list A)) : nat :=
  match s with Some xs => length xs | None => 0 end.

(** Lines 202-214 of the read handler: the describe request. *)
Definition describe_input (d : ResourceData) : fsx.DescribeStorageVirtualMachinesInput :=
  let input := fsx.mkDescribeStorageVirtualMachinesInput None None in
  let input := match GetOk_id d with
               | Some v => fsx.mkDescribeStorageVirtualMachinesInput (Some [v]) (fsx.Filters input)
               | None => input
               end in
  let input := fsx.mkDescribeStorageVirtualMachinesInput (fsx.StorageVirtualMachineIds input)
                 (Some (newStorageVirtualMachineFilterList (cfg_filter (rd_config d)))) in
  if decide (go_len (fsx.Filters input) = 0)
  then fsx.mkDescribeStorageVirtualMachinesInput (fsx.StorageVirtualMachineIds input) None
  else input.

(** A Go [(T, error)] result; the error is kept as its text. *)
Inductive result (A : Type) := Ok (a : A) | Err (e : string).
Arguments Ok {A} a.
Arguments Err {A} e.

(** ** The state the handler threads: Go heap and resource data *)

Record World := mkWorld { w_heap : Heap; w_data : ResourceData }.

(** How the handler ends before its last statement: a [return] with its
    diagnostics, or a Go panic with its message. *)
Inductive Exit :=
  | Returned (ds : Diagnostics)
  | Panicked (msg : string).

(** A computation of the handler: it either continues with a value or
    leaves early, by a [return] statement or by a panic. *)
Definition M (A : Type) := World -> (Exit + A) * World.

Definition ret {A} (a : A) : M A := fun w => (inr a, w).
Definition bind {A B} (m : M A) (k : A -> M B) : M B :=
  fun w => match m w with
           | (inl ds, w') => (inl ds, w')
           | (inr a, w') => k a w'
           end.
Definition return_early {A} (ds : Diagnostics) : M A := fun w => (inl (Returned ds), w).
Definition panic {A} (msg : string) : M A := fun w => (inl (Panicked msg), w).

(** The message of the runtime panic on a nil pointer dereference. *)
Definition nil_deref_panic : string :=
  "runtime error: invalid memory address or nil pointer dereference".

(** [*p] for a pointer [p], as in a call of a value-receiver method through
    it: a nil pointer panics. *)
Definition deref {A} (p : option A) : M A :=
  fun w => match p with
           | Some a => (inr a, w)
           | None => (inl (Panicked nil_deref_panic), w)
           end.

Global Instance M_ret : MRet M := @ret.
Global Instance M_bind : MBind M := fun A B k m => bind m k.

Definition get_data : M ResourceData := fun w => (inr (w_data w), w).
Definition get_heap : M Heap := fun w => (inr (w_heap w), w).
Definition put_heap (h : Heap) : M unit := fun w => (inr tt, mkWorld h (w_data w)).

(** [d.SetId(id)]. *)
Definition d_SetId (id : string) : M unit :=
  fun w => (inr tt, mkWorld (w_heap w) (rd_record (WSetId id) (w_data w))).

(** [aws.StringValue]: a nil pointer reads as the empty string. *)
Definition StringValue (p : option string) : string :=
  match p with Some s => s | None => "" end.

(** ** The read handler *)

Section Read.

(** SDK types whose contents this file does not inspect. *)
Variables (SvmActiveDirectoryConfiguration SvmEndpoints Time Tag : Type).

(** [*fsx.StorageVirtualMachine]; nil pointers are [None]. *)
Record StorageVirtualMachine := mkStorageVirtualMachine {
  ActiveDirectoryConfiguration : option SvmActiveDirectoryConfiguration;
  CreationTime : option Time;
  Endpoints : option SvmEndpoints;
  FileSystemId : option string;
  Lifecycle : option string;
  LifecycleTransitionReason : option fsx.LifecycleTransitionReason;
  Name : option string;
  ResourceARN : option string;
  StorageVirtualMachineId : option string;
  Subtype : option string;
  Tags : list Tag;
  UUID : option string }.

(** The flatteners of the other nested blocks, declared in other files. *)
Variable flattenSvmActiveDirectoryConfiguration :
  ResourceData -> option SvmActiveDirectoryConfiguration -> Value.
Variable flattenSvmEndpoints : option SvmEndpoints -> Value.

(** [t.Format(time.RFC3339)]. *)
Variable Format_RFC3339 : Time -> string.

(** The tag helpers of [internal/tags] and the provider's tag settings. *)
Variables (KeyValueTagsT IgnoreConfig DefaultConfig : Type).
Variable KeyValueTags : list Tag -> KeyValueTagsT.
Variable IgnoreAWS : KeyValueTagsT -> KeyValueTagsT.
Variable IgnoreConfigOp : KeyValueTagsT -> IgnoreConfig -> KeyValueTagsT.
Variable RemoveDefaultConfig : KeyValueTagsT -> DefaultConfig -> KeyValueTagsT.
Variable TagsMap : KeyValueTagsT -> gmap string string.

(** [meta] as a [conns.AWSClient]: the fields the handler reads. *)
Record AWSClient := mkAWSClient {
  DefaultTagsConfig : DefaultConfig;
  IgnoreTagsConfig : IgnoreConfig }.

(** The [DescribeStorageVirtualMachines] API call (all pages). *)
Variable DescribeStorageVirtualMachines :
  fsx.DescribeStorageVirtualMachinesInput -> result (list StorageVirtualMachine).

(** When [d.Set(key, value)] fails (the value does not fit the schema of
    [key]), the error it returns. *)
Variable set_error : string -> Value -> option string.

(** ** The schema declarator [dataSourceONTAPStorageVirtualMachine] *)

(** [schema.ValueType]. *)
Inductive ValueType := TypeBool | TypeInt | TypeFloat | TypeString | TypeList | TypeMap | TypeSet.

(** [*schema.Schema], reduced to the fields this file sets ([Optional],
    [Computed], [Required] default to false), and its [Elem]: a nested
    resource (a map from attribute name to schema) or a plain schema. *)
Inductive Schema :=
  | mkSchema (Type_ : ValueType) (Optional Computed Required : bool) (Elem : option SchemaElem)
with SchemaElem :=
  | ElemResource (fields : list (string * Schema))
  | ElemSchema (s : Schema).

(** The schemas of the nested blocks, written as in the source. *)
Definition computed_string : Schema := mkSchema TypeString false true false None.
Definition computed_string_set : Schema :=
  mkSchema TypeSet false true false (Some (ElemSchema (mkSchema TypeString false false false None))).

(** One protocol block of [endpoints] ([iscsi], [management], [nfs], [smb]). *)
Definition endpoint_schema : Schema :=
  mkSchema TypeList false true false (Some (ElemResource
    [("dns_name", computed_string); ("ip_addresses", computed_string_set)])).

(** The schemas of [filter] ([storageVirtualMachineFiltersSchema]) and [tags]
    ([tftags.TagsSchemaComputed]) are built in other files. *)
Variables (storageVirtualMachineFiltersSchema TagsSchemaComputed : Schema).

(** [dataSourceONTAPStorageVirtualMachine().Schema], in source order. *)
Definition dataSourceONTAPStorageVirtualMachine_Schema : list (string * Schema) :=
  [("active_directory_configuration",
      mkSchema TypeList false true false (Some (ElemResource
        [("netbios_name", computed_string);
         ("self_managed_active_directory_configuration",
            mkSchema TypeList false true false (Some (ElemResource
              [("dns_ips", computed_string_set);
               ("domain_name", computed_string);
               ("file_system_administrators_group", computed_string);
               ("organizational_unit_distinguished_name", computed_string);
               ("username", computed_string)])))])));
   ("arn", computed_string);
   ("creation_time", computed_string);
   ("endpoints",
      mkSchema TypeList false true false (Some (ElemResource
        [("iscsi", endpoint_schema); ("management", endpoint_schema);
         ("nfs", endpoint_schema); ("smb", endpoint_schema)])));
   ("file_system_id", computed_string);
   ("filter", storageVirtualMachineFiltersSchema);
   ("id", mkSchema TypeString true true false None);
   ("lifecycle_status", computed_string);
   ("lifecycle_transition_reason",
      mkSchema TypeSet false true false (Some (ElemResource [("message", computed_string)])));
   ("name", computed_string);
   ("subtype", computed_string);
   ("tags", TagsSchemaComputed);
   ("uuid", computed_string)].

Definition schema_Computed (s : Schema) : bool :=
  match s with mkSchema _ _ c _ _ => c end.
Definition schema_Optional (s : Schema) : bool :=
  match s with mkSchema _ o _ _ _ => o end.

(** A schema node and everything below it is output only: no node is
    [Optional] or [Required], and every attribute of a nested resource is
    [Computed]. *)
Fixpoint read_only (s : Schema) : bool :=
  match s with
  | mkSchema _ opt _ req e =>
      negb opt && negb req &&
      match e with
      | None => true
      | Some (ElemSchema s') => read_only s'
      | Some (ElemResource fs) =>
          (fix fields_ok (fs : list (string * Schema)) : bool :=
             match fs with
             | [] => true
             | (_, s') :: fs' => schema_Computed s' && read_only s' && fields_ok fs'
             end) fs
      end
  end.

(** The attribute names of the fields of a nested resource block. *)
Definition elem_fields (s : Schema) : list string :=
  match s with
  | mkSchema _ _ _ _ (Some (ElemResource fs)) => map fst fs
  | _ => []
  end.

(** Modelled from the spec: [findStorageVirtualMachine], declared in another
    file of the package: the describe call, the results kept by the
    predicate, and an error unless exactly one remains. *)
Definition findStorageVirtualMachine (input : fsx.DescribeStorageVirtualMachinesInput)
    (pred : StorageVirtualMachine -> bool) : result StorageVirtualMachine :=
  match DescribeStorageVirtualMachines input with
  | Err e => Err e
  | Ok svms =>
      match filter pred svms with
      | [svm] => Ok svm
      | [] => Err "empty result"
      | _ => Err "too many results"
      end
  end.

(** [tfslices.PredicateTrue]. *)
Definition PredicateTrue {A} (_ : A) : bool := true.

(** The schema [d.Set] looks up for a top-level attribute. *)
Fixpoint schema_lookup (k : string) (fs : list (string * Schema)) : option Schema :=
  match fs with
  | [] => None
  | (k', s) :: fs' => if String.eqb k k' then Some s else schema_lookup k fs'
  end.

(** A set attribute whose elements are nested resources. *)
Definition set_of_resources (s : option Schema) : bool :=
  match s with
  | Some (mkSchema TypeSet _ _ _ (Some (ElemResource _))) => true
  | _ => false
  end.

(** A list of maps with an element that writes no field (an empty or nil map). *)
Definition elem_missing (v : Value) : bool :=
  match v with
  | VMapList (Some ms) =>
      existsb (fun m => match m with Some m => bool_decide (m = ∅) | None => true end) ms
  | _ => false
  end.

(** The SDK's [MapFieldWriter.setSet] writes each element of a slice given
    for a set of nested resources into a temporary map and reads it back
    to hash it; an element that wrote no field reads back as absent, and
    the writer panics. *)
Definition set_panics (key : string) (v : Value) : bool :=
  set_of_resources (schema_lookup key dataSourceONTAPStorageVirtualMachine_Schema)
  && elem_missing v.

Definition set_item_panic : string := "set item just set doesn't exist".

Arguments set_panics : simpl never.

(** [err := d.Set(key, value)]: an error is returned (the writer checks the
    whole value first), a set element that writes nothing panics, and a
    successful write is recorded. *)
Definition d_Set (key : string) (v : Value) : M (option string) :=
  fun w => match set_error key v with
           | Some e => (inr (Some e), w)
           | None =>
               if set_panics key v then (inl (Panicked set_item_panic), w)
               else (inr None, mkWorld (w_heap w) (rd_record (WSet key v) (w_data w)))
           end.

(** [if err := ...; err != nil { return sdkdiag.AppendErrorf(diags, prefix + "%s", err) }] *)
Definition return_if_err (diags : Diagnostics) (prefix : string) (err : option string) : M unit :=
  match err with
  | Some e => return_early (AppendErrorf diags (prefix ++ e))
  | None => mret tt
  end.

(** [func dataSourceONTAPStorageVirtualMachineRead(ctx, d, meta) diag.Diagnostics]:
    the computation up to the final [return diags]. *)
Definition dataSourceONTAPStorageVirtualMachineRead_body (meta : AWSClient) : M Diagnostics :=
  let diags : Diagnostics := [] in
  let defaultTagsConfig := DefaultTagsConfig meta in
  let ignoreTagsConfig := IgnoreTagsConfig meta in
  d ← get_data;
  let input := describe_input d in
  match findStorageVirtualMachine input PredicateTrue with
  | Err err => return_early (AppendErrorf diags ("reading FSx ONTAP Storage Virtual Machine: " ++ err))
  | Ok svm =>
      d_SetId (StringValue (StorageVirtualMachineId svm));;
      d ← get_data;
      err ← d_Set "active_directory_configuration"
              (flattenSvmActiveDirectoryConfiguration d (ActiveDirectoryConfiguration svm));
      return_if_err diags "setting active_directory_configuration: " err;;
      d_Set "arn" (VStringPtr (ResourceARN svm));;
      t ← deref (CreationTime svm);
      d_Set "creation_time" (VString (Format_RFC3339 t));;
      err ← d_Set "endpoints" (flattenSvmEndpoints (Endpoints svm));
      return_if_err diags "setting endpoints: " err;;
      d_Set "file_system_id" (VStringPtr (FileSystemId svm));;
      d_Set "lifecycle_status" (VStringPtr (Lifecycle svm));;
      h ← get_heap;
      let '(ltr, h) := flattenLifecycleTransitionReason (LifecycleTransitionReason svm) h in
      put_heap h;;
      err ← d_Set "lifecycle_transition_reason" (VMapList (deref_slice ltr h));
      return_if_err diags "setting lifecycle_transition_reason: " err;;
      d_Set "name" (VStringPtr (Name svm));;
      d_Set "subtype" (VStringPtr (Subtype svm));;
      d_Set "uuid" (VStringPtr (UUID svm));;
      let tags := IgnoreConfigOp (IgnoreAWS (KeyValueTags (Tags svm))) ignoreTagsConfig in
      err ← d_Set "tags" (VStringMap (TagsMap (RemoveDefaultConfig tags defaultTagsConfig)));
      return_if_err diags "setting tags: " err;;
      mret diags
  end.

(** The handler returns the diagnostics of whichever [return] it reaches,
    unless it panics first. *)
Definition dataSourceONTAPStorageVirtualMachineRead (meta : AWSClient) (w : World)
    : Exit * World :=
  match dataSourceONTAPStorageVirtualMachineRead_body meta w with
  | (inl e, w') => (e, w')
  | (inr ds, w') => (Returned ds, w')
  end.

(** The writes a [d.Set] whose error the handler ignores leaves behind. *)
Definition recorded (key : string) (v : Value) : list Write :=
  match set_error key v with
  | None => [WSet key v]
  | Some _ => []
  end.

(** ** What the read handler writes and returns *)

(** The attribute a write targets ([SetId] writes [id]). *)
Definition write_key (wr : Write) : string :=
  match wr with WSetId _ => "id" | WSet k _ => k end.

(** [m] keeps the configuration, only appends writes, and the attributes of
    the writes it appends occur, in order, in [ks]. *)
Definition writes_within {A} (ks : list string) (m : M A) : Prop :=
  forall w, rd_config (w_data (m w).2) = rd_config (w_data w) /\
    exists new, rd_writes (w_data (m w).2) = (rd_writes (w_data w) ++ new)%list /\
                sublist (map write_key new) ks.

(** Every early return of [m] satisfies [P], every panic [R], every normal
    result [Q]. *)
Definition outcome_ok {A} (P : Diagnostics -> Prop) (R : string -> Prop) (Q : A -> Prop)
    (m : M A) : Prop :=
  forall w, match (m w).1 with
            | inl (Returned ds) => P ds
            | inl (Panicked msg) => R msg
            | inr a => Q a
            end.

(** The order in which the read handler writes attributes. *)
Definition read_write_order : list string :=
  ["id"; "active_directory_configuration"; "arn"; "creation_time"; "endpoints";
   "file_system_id"; "lifecycle_status"; "lifecycle_transition_reason"; "name";
   "subtype"; "uuid"; "tags"].

(** The prefixes of the diagnostics the read handler returns. *)
Definition read_error_prefixes : list string :=
  ["reading FSx ONTAP Storage Virtual Machine: ";
   "setting active_directory_configuration: "; "setting endpoints: ";
   "setting lifecycle_transition_reason: "; "setting tags: "].

Definition single_error_with_prefix (ds : Diagnostics) : Prop :=
  exists p e, p ∈ read_error_prefixes /\ ds = [mkDiagnostic Error (p ++ e)].

(** The inputs on which the read handler panics once the lookup has found
    [svm]: a nil creation time, or a transition reason without a message,
    which flattens to a set element with no field. *)
Definition read_panic_cause (svm : StorageVirtualMachine) (msg : string) : Prop :=
  (CreationTime svm = None /\ msg = nil_deref_panic) \/
  ((exists r, LifecycleTransitionReason svm = Some r /\ fsx.Message r = None) /\
   msg = set_item_panic).

(** The attributes whose [d.Set] error the read handler ignores. *)
Definition ignored_set_keys : list string :=
  ["arn"; "creation_time"; "file_system_id"; "lifecycle_status"; "name"; "subtype"; "uuid"].

(** [d.Set] of a value that is not a list of maps, or of an attribute that is
    not a set of nested resources, never panics. *)
Lemma set_panics_no_maps (k : string) (v : Value) :
  elem_missing v = false -> set_panics k v = false.
Proof. intros Hv. unfold set_panics. rewrite Hv. apply andb_false_r. Qed.

Ltac no_set_panic :=
  first [ reflexivity | apply set_panics_no_maps; reflexivity | assumption ].

(** Run the handler forward: use the known outcomes of [d.Set] and of the
    flattener, and split on the outcome of each [d.Set] whose error is
    ignored. *)
Ltac run_read Eltr :=
  repeat (simpl;
    first
      [ rewrite Eltr
      | progress cbv [mret M_ret ret]
      | match goal with H : set_error _ _ = _ |- _ => rewrite H end
      | match goal with H : CreationTime _ = _ |- _ => rewrite H end
      | match goal with H : set_panics _ _ = _ |- _ => rewrite H end
      | match goal with
        | |- context [set_panics ?k ?v] =>
            let E := fresh "Epanic" in
            assert (E : set_panics k v = false) by no_set_panic; rewrite E; clear E
        end
      | match goal with
        | |- context [match set_error ?k ?v with _ => _ end] =>
            let Hk := fresh "Hk" in
            assert (Hk : bool_decide (k ∈ ignored_set_keys) = true) by reflexivity;
            clear Hk;
            let E := fresh "Eset" in destruct (set_error k v) eqn:E
        end ]).

(** ** Properties of [flattenLifecycleTransitionReason] *)

Lemma make_map_fresh (h : Heap) :
  hmaps h !! fst (make_map h) = None.
Proof.
  unfold make_map; simpl.
  apply not_elem_of_dom. apply is_fresh.
Qed.

Lemma make_map_lookup (h : Heap) :
  hmaps (snd (make_map h)) !! fst (make_map h) = Some ∅.
Proof. unfold make_map; simpl. by rewrite lookup_insert_eq. Qed.

Lemma make_map_keeps (h : Heap) (l : loc) (m : gmap string string) :
  hmaps h !! l = Some m -> hmaps (snd (make_map h)) !! l = Some m.
Proof.
  intros Hl. pose proof (make_map_fresh h) as Hf.
  unfold make_map in *; simpl in *.
  rewrite lookup_insert_ne; [done|]. intros <-. congruence.
Qed.

Lemma map_store_keeps (l l' : loc) (k v : string) (h : Heap) (m : gmap string string) :
  l <> l' -> hmaps h !! l' = Some m -> hmaps (map_store l k v h) !! l' = Some m.
Proof.
  intros Hne Hl. unfold map_store.
  destruct (hmaps h !! l); simpl; [|done].
  by rewrite lookup_insert_ne.
Qed.

(** The value a present reason flattens to does not depend on the heap. *)
Lemma flatten_view_Some (r : fsx.LifecycleTransitionReason) (h : Heap) :
  flatten_view (Some r) h =
    Some [Some (match fsx.Message r with
                | Some s => {["message" := s]}
                | None => ∅
                end)].
Proof.
  unfold flatten_view, flattenLifecycleTransitionReason.
  pose proof (make_map_lookup h) as Hl.
  destruct (make_map h) as [l h1]; simpl in *.
  destruct (fsx.Message r) as [s|]; simpl.
  - unfold map_store. rewrite Hl; simpl.
    rewrite lookup_insert_eq. by rewrite insert_empty.
  - by rewrite Hl.
Qed.

(** [d.Set] of [lifecycle_transition_reason] panics exactly on a present
    reason without a message. *)
Lemma ltr_set_panics (rs : option fsx.LifecycleTransitionReason) (h : Heap) :
  set_panics "lifecycle_transition_reason" (VMapList (flatten_view rs h)) = true <->
  exists r, rs = Some r /\ fsx.Message r = None.
Proof.
  destruct rs as [r|].
  - rewrite flatten_view_Some. unfold set_panics. simpl.
    destruct (fsx.Message r) as [m|] eqn:E; simpl.
    + rewrite bool_decide_eq_false_2 by apply map_non_empty_singleton.
      split; [discriminate|]. intros (r' & Hr & E'). injection Hr as <-. congruence.
    + rewrite bool_decide_eq_true_2 by reflexivity. split; [eauto|reflexivity].
  - unfold set_panics. simpl. split; [discriminate|]. intros (r & Hr & _). discriminate.
Qed.

(** The same, for the value the handler passes after running the flattener. *)
Lemma ltr_set_panics_run (rs : option fsx.LifecycleTransitionReason) (h0 h : Heap) (sl : GoSlice) :
  flattenLifecycleTransitionReason rs h0 = (sl, h) ->
  set_panics "lifecycle_transition_reason" (VMapList (deref_slice sl h)) = true <->
  exists r, rs = Some r /\ fsx.Message r = None.
Proof.
  intros E. rewrite <- (ltr_set_panics rs h0). unfold flatten_view. by rewrite E.
Qed.

(** C4: an absent (nil) reason flattens to a non-nil empty list. *)
Theorem flattenLifecycleTransitionReason_nil (h : Heap) :
  fst (flattenLifecycleTransitionReason None h) = Some [].
Proof. reflexivity. Qed.

(** C5: a present reason with a message flattens to exactly one element, a
    map that binds "message" to that message. *)
Theorem flattenLifecycleTransitionReason_message (s : string) (h : Heap) :
  flatten_view (Some (fsx.mkLifecycleTransitionReason (Some s))) h =
    Some [Some {["message" := s]}].
Proof. by rewrite flatten_view_Some. Qed.

(** C8: the flattener is a function of its input only: two calls on the same
    reason, whatever the heap they run in, give the same list of maps, and a
    call leaves every map that existed before it untouched. *)
Theorem flattenLifecycleTransitionReason_pure
    (rs : option fsx.LifecycleTransitionReason) (h1 h2 : Heap) :
  flatten_view rs h1 = flatten_view rs h2 /\
  (forall (l : loc) (m : gmap string string),
     hmaps h1 !! l = Some m ->
     hmaps (snd (flattenLifecycleTransitionReason rs h1)) !! l = Some m).
Proof.
  split.
  - destruct rs as [r|]; [by rewrite !flatten_view_Some | reflexivity].
  - intros l m Hl. destruct rs as [r|]; [|done].
    unfold flattenLifecycleTransitionReason.
    pose proof (make_map_fresh h1) as Hf.
    pose proof (make_map_keeps h1 l m Hl) as Hk.
    destruct (make_map h1) as [l1 h1']; simpl in *.
    destruct (fsx.Message r); simpl; [|done].
    apply map_store_keeps; [|done]. intros ->. congruence.
Qed.

(** C9: for every input the result is a non-nil list of at most one element. *)
Theorem flattenLifecycleTransitionReason_at_most_one
    (rs : option fsx.LifecycleTransitionReason) (h : Heap) :
  exists xs, fst (flattenLifecycleTransitionReason rs h) = Some xs /\ length xs <= 1.
Proof.
  destruct rs as [r|]; unfold flattenLifecycleTransitionReason.
  - destruct (make_map h) as [l h1]; simpl.
    destruct (fsx.Message r); simpl; eexists; split; try reflexivity; simpl; lia.
  - exists []; split; [reflexivity|simpl; lia].
Qed.

(** C10: a present reason without a message flattens to one element, a map
    with no "message" key. *)
Theorem flattenLifecycleTransitionReason_no_message (h : Heap) :
  flatten_view (Some (fsx.mkLifecycleTransitionReason None)) h = Some [Some ∅] /\
  (∅ : gmap string string) !! "message" = None.
Proof. split; [by rewrite flatten_view_Some | apply lookup_empty]. Qed.

(** ** Properties of the read handler *)

(** C1: when the lookup fails (an API error, no match or several matches),
    the handler returns one error diagnostic, the fixed prefix followed by
    the error text, and leaves the state as it was: no identifier and no
    attribute is written. *)
Theorem read_lookup_error (meta : AWSClient) (w : World) (err : string) :
  findStorageVirtualMachine (describe_input (w_data w)) PredicateTrue = Err err ->
  dataSourceONTAPStorageVirtualMachineRead meta w =
    (Returned [mkDiagnostic Error ("reading FSx ONTAP Storage Virtual Machine: " ++ err)], w).
Proof.
  intros Hfind.
  unfold dataSourceONTAPStorageVirtualMachineRead, dataSourceONTAPStorageVirtualMachineRead_body.
  cbv [mbind M_bind bind get_data]. rewrite Hfind. reflexivity.
Qed.


(** ** Writes and diagnostics of the read handler, step by step *)

Lemma writes_within_ret {A} (a : A) : writes_within [] (mret a).
Proof. intros w. split; [done|]. exists []. split; [by rewrite app_nil_r | apply sublist_nil_l]. Qed.

Lemma writes_within_early {A} (ds : Diagnostics) : writes_within [] (return_early (A:=A) ds).
Proof. intros w. split; [done|]. exists []. split; [by rewrite app_nil_r | apply sublist_nil_l]. Qed.

Lemma writes_within_get_data : writes_within [] get_data.
Proof. intros w. split; [done|]. exists []. split; [by rewrite app_nil_r | apply sublist_nil_l]. Qed.

Lemma writes_within_get_heap : writes_within [] get_heap.
Proof. intros w. split; [done|]. exists []. split; [by rewrite app_nil_r | apply sublist_nil_l]. Qed.

Lemma writes_within_put_heap (h : Heap) : writes_within [] (put_heap h).
Proof. intros w. split; [done|]. exists []. split; [by rewrite app_nil_r | apply sublist_nil_l]. Qed.

Lemma writes_within_deref {A} (p : option A) : writes_within [] (deref p).
Proof.
  intros w. split; [by destruct p|]. exists [].
  split; [destruct p; simpl; by rewrite app_nil_r | apply sublist_nil_l].
Qed.

Lemma writes_within_d_SetId (id : string) : writes_within ["id"] (d_SetId id).
Proof. intros w. split; [done|]. exists [WSetId id]. split; reflexivity. Qed.

Lemma writes_within_d_Set (k : string) (v : Value) : writes_within [k] (d_Set k v).
Proof.
  intros w. unfold d_Set.
  destruct (set_error k v); [|destruct (set_panics k v)]; simpl; split; try done.
  - exists []. split; [by rewrite app_nil_r | apply sublist_nil_l].
  - exists []. split; [by rewrite app_nil_r | apply sublist_nil_l].
  - exists [WSet k v]. split; reflexivity.
Qed.

Lemma writes_within_return_if_err (diags : Diagnostics) (p : string) (err : option string) :
  writes_within [] (return_if_err diags p err).
Proof. destruct err; [apply writes_within_early | apply writes_within_ret]. Qed.

Lemma writes_within_bind {A B} (ks1 ks2 : list string) (m : M A) (k : A -> M B) :
  writes_within ks1 m -> (forall a, writes_within ks2 (k a)) ->
  writes_within (ks1 ++ ks2) (m ≫= k).
Proof.
  intros H1 H2 w. cbv [mbind M_bind bind].
  destruct (H1 w) as [Hc (n & Hn & Hs)].
  destruct (m w) as [[ds|a] w']; simpl in *.
  - split; [done|]. exists n. split; [done|]. by apply sublist_inserts_r.
  - destruct (H2 a w') as [Hc' (n' & Hn' & Hs')].
    split; [congruence|]. exists (n ++ n')%list. split.
    + by rewrite Hn', Hn, app_assoc.
    + rewrite map_app. by apply sublist_app.
Qed.

Lemma writes_within_weaken {A} (ks ks' : list string) (m : M A) :
  sublist ks ks' -> writes_within ks m -> writes_within ks' m.
Proof.
  intros Hks H w. destruct (H w) as [Hc (n & Hn & Hs)].
  split; [done|]. exists n. split; [done|]. by transitivity ks.
Qed.

(** Split a straight-line computation of the handler into its steps. *)
Ltac writes_steps :=
  lazymatch goal with
  | |- writes_within _ (mbind _ _) =>
      eapply writes_within_bind; [writes_steps | intros; writes_steps]
  | |- writes_within _ (match ?p with pair _ _ => _ end) => destruct p; writes_steps
  | |- writes_within _ (d_Set _ _) => apply writes_within_d_Set
  | |- writes_within _ (d_SetId _) => apply writes_within_d_SetId
  | |- writes_within _ get_data => apply writes_within_get_data
  | |- writes_within _ get_heap => apply writes_within_get_heap
  | |- writes_within _ (put_heap _) => apply writes_within_put_heap
  | |- writes_within _ (deref _) => apply writes_within_deref
  | |- writes_within _ (return_if_err _ _ _) => apply writes_within_return_if_err
  | |- writes_within _ (mret _) => apply writes_within_ret
  end.

Lemma read_body_writes_within (meta : AWSClient) :
  writes_within read_write_order (dataSourceONTAPStorageVirtualMachineRead_body meta).
Proof.
  unfold dataSourceONTAPStorageVirtualMachineRead_body. cbv zeta.
  apply (writes_within_weaken ([] ++ read_write_order)); [reflexivity|].
  apply writes_within_bind; [apply writes_within_get_data|]. intros d.
  destruct (findStorageVirtualMachine _ _) as [svm|err].
  - eapply writes_within_weaken; cycle 1; [writes_steps | simpl; reflexivity].
  - eapply writes_within_weaken; [apply sublist_nil_l | apply writes_within_early].
Qed.

Lemma bind_get_data {A} (k : ResourceData -> M A) (w : World) :
  (get_data ≫= k) w = k (w_data w) w.
Proof. reflexivity. Qed.

Lemma outcome_ok_ret {A} P R (Q : A -> Prop) (a : A) :
  Q a -> outcome_ok P R Q (mret a).
Proof. intros Ha w. exact Ha. Qed.

Lemma outcome_ok_early {A} P R (Q : A -> Prop) (ds : Diagnostics) :
  P ds -> outcome_ok P R Q (return_early ds).
Proof. intros Hds w. exact Hds. Qed.

Lemma outcome_ok_bind {A B} P R (Q1 : A -> Prop) (Q2 : B -> Prop) (m : M A) (k : A -> M B) :
  outcome_ok P R Q1 m -> (forall a, Q1 a -> outcome_ok P R Q2 (k a)) ->
  outcome_ok P R Q2 (m ≫= k).
Proof.
  intros H1 H2 w. specialize (H1 w). cbv [mbind M_bind bind].
  destruct (m w) as [[[ds|msg]|a] w']; simpl in *; [done|done|]. by apply H2.
Qed.

Lemma outcome_ok_d_Set P (R : string -> Prop) (k : string) (v : Value) :
  (set_panics k v = true -> R set_item_panic) ->
  outcome_ok P R (fun _ => True) (d_Set k v).
Proof.
  intros HR w. unfold d_Set.
  destruct (set_error k v); [done|]. by destruct (set_panics k v); [apply HR|].
Qed.

Lemma outcome_ok_deref {A} P (R : string -> Prop) (p : option A) :
  (p = None -> R nil_deref_panic) ->
  outcome_ok P R (fun _ => True) (deref p).
Proof. intros HR w. destruct p; simpl; [done | by apply HR]. Qed.

Lemma outcome_ok_return_if_err R (p : string) (err : option string) :
  p ∈ read_error_prefixes ->
  outcome_ok single_error_with_prefix R (fun _ => True) (return_if_err [] p err).
Proof.
  intros Hp w. destruct err as [e|]; simpl; [|done].
  exists p, e. split; [done | reflexivity].
Qed.

(** Split a straight-line computation of the handler into its steps; the
    side conditions of the panicking steps that are not discharged here are
    left to the caller. *)
Ltac outcome_steps :=
  lazymatch goal with
  | |- outcome_ok _ _ _ (mbind _ _) =>
      apply (outcome_ok_bind _ _ (fun _ => True)); [outcome_steps | intros ? _; outcome_steps]
  | |- outcome_ok _ _ _ (match ?p with pair _ _ => _ end) =>
      let E := fresh "Epair" in destruct p eqn:E; outcome_steps
  | |- outcome_ok _ _ _ (d_Set ?k ?v) =>
      apply outcome_ok_d_Set;
      try (let Hp := fresh "Hp" in intros Hp; exfalso;
           assert (set_panics k v = false) by no_set_panic; congruence)
  | |- outcome_ok _ _ _ (deref _) => apply outcome_ok_deref
  | |- outcome_ok _ _ _ (return_if_err _ _ _) =>
      apply outcome_ok_return_if_err; vm_compute; set_solver
  | |- outcome_ok _ _ _ (mret _) => apply outcome_ok_ret; reflexivity
  | |- outcome_ok _ _ _ _ => intros ?w; exact I
  end.

(** The handler returns no diagnostic or one error with a fixed prefix, and
    panics only for the causes of [read_panic_cause]. *)
Lemma read_body_outcome (meta : AWSClient) (w : World) :
  match (dataSourceONTAPStorageVirtualMachineRead_body meta w).1 with
  | inl (Returned ds) => single_error_with_prefix ds
  | inl (Panicked msg) =>
      exists svm, findStorageVirtualMachine (describe_input (w_data w)) PredicateTrue = Ok svm /\
                  read_panic_cause svm msg
  | inr ds => ds = []
  end.
Proof.
  unfold dataSourceONTAPStorageVirtualMachineRead_body. cbv zeta.
  rewrite bind_get_data. cbv beta.
  destruct (findStorageVirtualMachine _ _) as [svm|err] eqn:Hf.
  - lazymatch goal with
    | |- match (?m ?w0).1 with _ => _ end =>
        assert (Hok : outcome_ok single_error_with_prefix (read_panic_cause svm)
                        (fun ds : Diagnostics => ds = []) m)
    end.
    + outcome_steps.
      * intros Hc. left. by split.
      * intros Hp. right. split; [|reflexivity].
        match goal with E : flattenLifecycleTransitionReason _ _ = _ |- _ =>
          by apply (ltr_set_panics_run _ _ _ _ E) in Hp end.
    + specialize (Hok w). destruct (_ w).1 as [[ds|msg]|ds]; eauto.
  - simpl. eexists _, err. split; [|reflexivity]. vm_compute; set_solver.
Qed.


(** The read handler keeps the configuration, only appends writes, writes
    attributes in the order of the code, never one twice, and only
    attributes the schema declares; this holds whether it returns or
    panics. *)
Theorem read_writes_declared_once (meta : AWSClient) (w : World) :
  let w' := (dataSourceONTAPStorageVirtualMachineRead meta w).2 in
  rd_config (w_data w') = rd_config (w_data w) /\
  exists new, rd_writes (w_data w') = (rd_writes (w_data w) ++ new)%list /\
    sublist (map write_key new) read_write_order /\
    NoDup (map write_key new) /\
    Forall (fun k => k ∈ map fst dataSourceONTAPStorageVirtualMachine_Schema) (map write_key new).
Proof.
  intros w'. subst w'.
  assert (Hw' : (dataSourceONTAPStorageVirtualMachineRead meta w).2 =
                (dataSourceONTAPStorageVirtualMachineRead_body meta w).2).
  { unfold dataSourceONTAPStorageVirtualMachineRead.
    by destruct (dataSourceONTAPStorageVirtualMachineRead_body meta w) as [[] ?]. }
  rewrite Hw'.
  destruct (read_body_writes_within meta w) as [Hc (n & Hn & Hs)].
  split; [done|]. exists n. split; [done|]. split; [done|]. split.
  - eapply sublist_NoDup; [|exact Hs]. apply NoDup_ListNoDup. vm_compute. 
    repeat constructor; simpl; intuition discriminate.
  - apply Forall_forall. intros k Hk.
    eapply elem_of_submseteq in Hk; [|apply sublist_submseteq; exact Hs].
    unfold read_write_order in Hk. simpl.
    repeat (apply elem_of_cons in Hk as [->|Hk]; [set_solver|]).
    by apply not_elem_of_nil in Hk.
Qed.

(** The handler either returns no diagnostic or exactly one error whose
    summary starts with one of its five fixed prefixes, or it panics; it
    panics only after the lookup has found an SVM with a nil creation time
    (a nil pointer dereference) or with a transition reason without a
    message (the set writer's panic). *)
Theorem read_outcome_shape (meta : AWSClient) (w : World) :
  match (dataSourceONTAPStorageVirtualMachineRead meta w).1 with
  | Returned ds => ds = [] \/ single_error_with_prefix ds
  | Panicked msg =>
      exists svm, findStorageVirtualMachine (describe_input (w_data w)) PredicateTrue = Ok svm /\
                  read_panic_cause svm msg
  end.
Proof.
  pose proof (read_body_outcome meta w) as H.
  unfold dataSourceONTAPStorageVirtualMachineRead.
  destruct (dataSourceONTAPStorageVirtualMachineRead_body meta w) as [[[ds|msg]|ds] w'];
    simpl in *; [right | | left]; done.
Qed.



(** On a nil creation time the handler panics at [svm.CreationTime.Format]
    after the identifier, [active_directory_configuration] and [arn]. *)
Theorem read_nil_creation_time_panics (meta : AWSClient) (w : World) (svm : StorageVirtualMachine) :
  findStorageVirtualMachine (describe_input (w_data w)) PredicateTrue = Ok svm ->
  CreationTime svm = None ->
  let wid := WSetId (StringValue (StorageVirtualMachineId svm)) in
  let vad := flattenSvmActiveDirectoryConfiguration
               (rd_record wid (w_data w)) (ActiveDirectoryConfiguration svm) in
  set_error "active_directory_configuration" vad = None ->
  (dataSourceONTAPStorageVirtualMachineRead meta w).1 = Panicked nil_deref_panic /\
  rd_writes (w_data (dataSourceONTAPStorageVirtualMachineRead meta w).2) =
    (rd_writes (w_data w) ++ [wid; WSet "active_directory_configuration" vad]
      ++ recorded "arn" (VStringPtr (ResourceARN svm)))%list.
Proof.
  intros Hfind Hct wid vad.
  unfold dataSourceONTAPStorageVirtualMachineRead, dataSourceONTAPStorageVirtualMachineRead_body.
  cbv [mbind M_bind bind get_data get_heap put_heap d_SetId deref].
  rewrite Hfind.
  destruct w as [h d]; simpl in *. subst wid vad.
  unfold d_Set, return_if_err, recorded, rd_record, return_early; simpl.
  intros; run_read Hct; simpl; split; try reflexivity; rewrite <- ?app_assoc; reflexivity.
Qed.

(** On a transition reason without a message, the [d.Set] of
    [lifecycle_transition_reason] that is reached panics, without a
    diagnostic and without writing the attribute. *)
Theorem read_empty_reason_panics (meta : AWSClient) (w : World) (svm : StorageVirtualMachine)
    (t : Time) (r : fsx.LifecycleTransitionReason) :
  findStorageVirtualMachine (describe_input (w_data w)) PredicateTrue = Ok svm ->
  CreationTime svm = Some t ->
  LifecycleTransitionReason svm = Some r -> fsx.Message r = None ->
  let wid := WSetId (StringValue (StorageVirtualMachineId svm)) in
  let vad := flattenSvmActiveDirectoryConfiguration
               (rd_record wid (w_data w)) (ActiveDirectoryConfiguration svm) in
  let vep := flattenSvmEndpoints (Endpoints svm) in
  let vltr := VMapList (flatten_view (LifecycleTransitionReason svm) (w_heap w)) in
  set_error "active_directory_configuration" vad = None ->
  set_error "endpoints" vep = None ->
  set_error "lifecycle_transition_reason" vltr = None ->
  (dataSourceONTAPStorageVirtualMachineRead meta w).1 = Panicked set_item_panic /\
  rd_writes (w_data (dataSourceONTAPStorageVirtualMachineRead meta w).2) =
    (rd_writes (w_data w) ++ [wid; WSet "active_directory_configuration" vad]
      ++ recorded "arn" (VStringPtr (ResourceARN svm))
      ++ recorded "creation_time" (VString (Format_RFC3339 t))
      ++ [WSet "endpoints" vep]
      ++ recorded "file_system_id" (VStringPtr (FileSystemId svm))
      ++ recorded "lifecycle_status" (VStringPtr (Lifecycle svm)))%list.
Proof.
  intros Hfind Hct Hr Hm wid vad vep vltr.
  unfold dataSourceONTAPStorageVirtualMachineRead, dataSourceONTAPStorageVirtualMachineRead_body.
  cbv [mbind M_bind bind get_data get_heap put_heap d_SetId deref].
  rewrite Hfind.
  unfold flatten_view in vltr.
  destruct w as [h d]; simpl in *.
  destruct (flattenLifecycleTransitionReason (LifecycleTransitionReason svm) h) as [ltr h'] eqn:Eltr.
  assert (Hp : set_panics "lifecycle_transition_reason" (VMapList (deref_slice ltr h')) = true).
  { apply (ltr_set_panics_run _ _ _ _ Eltr). eauto. }
  subst wid vad vep vltr.
  unfold d_Set, return_if_err, recorded, rd_record, return_early; simpl.
  intros; run_read Eltr; simpl; split; try reflexivity; rewrite <- ?app_assoc; reflexivity.
Qed.

(** Every attribute the file declares, at every depth, is output only
    (computed, neither optional nor required), except the [id] argument,
    which is optional and computed; [filter] and [tags] come from other
    files. *)
Theorem schema_read_only (k : string) (s : Schema) :
  (k, s) ∈ dataSourceONTAPStorageVirtualMachine_Schema ->
  k ∉ ["filter"; "id"; "tags"] ->
  schema_Computed s = true /\ read_only s = true.
Proof.
  intros Hin Hk. unfold dataSourceONTAPStorageVirtualMachine_Schema in Hin.
  repeat (apply elem_of_cons in Hin as [Heq|Hin];
          [injection Heq as -> ->; first [split; reflexivity | set_solver] |]).
  by apply not_elem_of_nil in Hin.
Qed.

(** The maps the flattener builds only use keys that the schema declares for
    [lifecycle_transition_reason]. *)
Theorem flattenLifecycleTransitionReason_keys_declared
    (rs : option fsx.LifecycleTransitionReason) (h : Heap)
    (ms : list (option (gmap string string))) (m : gmap string string) (s : Schema) :
  flatten_view rs h = Some ms -> Some m ∈ ms ->
  ("lifecycle_transition_reason", s) ∈ dataSourceONTAPStorageVirtualMachine_Schema ->
  forall k, k ∈ dom m -> k ∈ elem_fields s.
Proof using storageVirtualMachineFiltersSchema TagsSchemaComputed.
  intros Hv Hm Hs k Hk.
  assert (Hs' : s = mkSchema TypeSet false true false
                      (Some (ElemResource [("message", computed_string)]))).
  { unfold dataSourceONTAPStorageVirtualMachine_Schema in Hs.
    repeat (apply elem_of_cons in Hs as [Heq|Hs];
            [first [discriminate Heq | injection Heq as Hs'; exact Hs'] |]).
    by apply not_elem_of_nil in Hs. }
  subst s. simpl.
  destruct rs as [r|]; [rewrite flatten_view_Some in Hv|].
  - injection Hv as <-. apply list_elem_of_singleton in Hm. injection Hm as ->.
    destruct (fsx.Message r).
    + rewrite dom_singleton_L in Hk. apply elem_of_singleton in Hk as ->. constructor.
    + rewrite dom_empty_L in Hk. by apply not_elem_of_empty in Hk.
  - simpl in Hv. injection Hv as <-. by apply not_elem_of_nil in Hm.
Qed.

(** The flattener allocates exactly one new map when the reason is present
    and none when it is absent; the maps it returns are the ones it allocated. *)
Theorem flattenLifecycleTransitionReason_allocation
    (rs : option fsx.LifecycleTransitionReason) (h : Heap) :
  let '(sl, h') := flattenLifecycleTransitionReason rs h in
  match rs with
  | None => sl = Some [] /\ dom (hmaps h') = dom (hmaps h)
  | Some _ => exists l, (l ∉ dom (hmaps h)) /\ sl = Some [l] /\
                        dom (hmaps h') = ({[l]} ∪ dom (hmaps h))
  end.
Proof.
  destruct rs as [r|]; [|split; reflexivity].
  unfold flattenLifecycleTransitionReason, make_map.
  exists (fresh (dom (hmaps h))). split; [apply is_fresh|]. split; [done|].
  destruct (fsx.Message r); simpl.
  - unfold map_store. simpl. rewrite lookup_insert_eq. simpl.
    rewrite insert_insert_eq, dom_insert_L. reflexivity.
  - by rewrite dom_insert_L.
Qed.

(** ** Properties of the describe request *)

(** C6: an explicit (non-empty) identifier restricts the request to exactly
    that identifier, and the configured filters are still sent (the filter
    list is omitted only when it is empty). *)
Theorem describe_input_explicit_id (d : ResourceData) (v : string) :
  cfg_id (rd_config d) = Some v -> v <> "" ->
  fsx.StorageVirtualMachineIds (describe_input d) = Some [v] /\
  fsx.Filters (describe_input d) =
    match newStorageVirtualMachineFilterList (cfg_filter (rd_config d)) with
    | [] => None
    | fl => Some fl
    end.
Proof.
  intros Hid Hne. unfold describe_input, GetOk_id. rewrite Hid.
  destruct (decide (v = "")) as [Heq|_]; [contradiction|].
  destruct (newStorageVirtualMachineFilterList (cfg_filter (rd_config d))) as [|f fl];
    simpl; split; reflexivity.
Qed.

(** The request never carries an empty, non-nil filter list. *)
Theorem describe_input_filters_never_empty (d : ResourceData) :
  fsx.Filters (describe_input d) <> Some [].
Proof.
  unfold describe_input.
  destruct (GetOk_id d);
    destruct (newStorageVirtualMachineFilterList (cfg_filter (rd_config d))) eqn:E;
    simpl; try discriminate; rewrite E; simpl; discriminate.
Qed.

(** Without an identifier, or with an empty one, the request carries no
    identifier list: the lookup relies on the filters alone. *)
Theorem describe_input_no_id (d : ResourceData) :
  cfg_id (rd_config d) = None \/ cfg_id (rd_config d) = Some "" ->
  fsx.StorageVirtualMachineIds (describe_input d) = None.
Proof.
  intros Hid. unfold describe_input, GetOk_id.
  destruct Hid as [-> | ->]; simpl;
    case_decide; reflexivity.
Qed.

(** C7: with an empty filter set, the request's filter field is nil. *)
Theorem describe_input_no_filters (id : option string) (writes : list Write) :
  fsx.Filters (describe_input (mkResourceData (mkConfig id []) writes)) = None.
Proof. unfold describe_input. destruct (GetOk_id _); reflexivity. Qed.

End Read.

(** ** Witnesses: the theorems above on concrete inputs *)

Lemma describe_input_explicit_id_witness :
  let d := mkResourceData (mkConfig (Some "svm-0123456789abcdef0")
             [mkFilterConfig "file-system-id" ["fs-0123456789abcdef0"]]) [] in
  fsx.StorageVirtualMachineIds (describe_input d) = Some ["svm-0123456789abcdef0"] /\
  fsx.Filters (describe_input d) =
    Some [fsx.mkStorageVirtualMachineFilter (Some "file-system-id") ["fs-0123456789abcdef0"]].
Proof.
  intros d. apply (describe_input_explicit_id d "svm-0123456789abcdef0");
    [reflexivity | discriminate].
Defined.

Lemma read_lookup_error_witness :
  let read := dataSourceONTAPStorageVirtualMachineRead unit unit unit unit
                (fun _ _ => VOther "active_directory_configuration")
                (fun _ => VOther "endpoints") (fun _ => "2024-01-01T00:00:00Z")
                unit unit unit (fun _ => tt) (fun t => t) (fun t _ => t) (fun t _ => t)
                (fun _ => ∅)
                (fun _ => Ok [])                          (* no SVM matches *)
                (fun _ _ => None)
                (mkSchema TypeSet true false false None)
                (mkSchema TypeMap false true false
                   (Some (ElemSchema (mkSchema TypeString false false false None)))) in
  let w := mkWorld (mkHeap ∅)
             (mkResourceData (mkConfig (Some "svm-0123456789abcdef0") []) []) in
  read (mkAWSClient unit unit tt tt) w =
    (Returned [mkDiagnostic Error "reading FSx ONTAP Storage Virtual Machine: empty result"], w).
Proof.
  intros read w. apply read_lookup_error. reflexivity.
Defined.





Lemma read_nil_creation_time_panics_witness :
  let svm := mkStorageVirtualMachine unit unit unit unit
               None None None None None None None None (Some "svm-0123456789abcdef0") None [] None in
  let read := dataSourceONTAPStorageVirtualMachineRead unit unit unit unit
                (fun _ _ => VOther "active_directory_configuration")
                (fun _ => VOther "endpoints") (fun _ => "2024-01-01T00:00:00Z")
                unit unit unit (fun _ => tt) (fun t => t) (fun t _ => t) (fun t _ => t)
                (fun _ => ∅) (fun _ => Ok [svm]) (fun _ _ => None)
                (mkSchema TypeSet true false false None)
                (mkSchema TypeMap false true false
                   (Some (ElemSchema (mkSchema TypeString false false false None)))) in
  let w := mkWorld (mkHeap ∅) (mkResourceData (mkConfig None []) []) in
  (read (mkAWSClient unit unit tt tt) w).1 = Panicked nil_deref_panic.
Proof.
  intros svm read w. eapply proj1.
  eapply read_nil_creation_time_panics with (svm := svm); reflexivity.
Defined.

Lemma read_empty_reason_panics_witness :
  let svm := mkStorageVirtualMachine unit unit unit unit
               None (Some tt) None None None (Some (fsx.mkLifecycleTransitionReason None))
               None None (Some "svm-0123456789abcdef0") None [] None in
  let read := dataSourceONTAPStorageVirtualMachineRead unit unit unit unit
                (fun _ _ => VOther "active_directory_configuration")
                (fun _ => VOther "endpoints") (fun _ => "2024-01-01T00:00:00Z")
                unit unit unit (fun _ => tt) (fun t => t) (fun t _ => t) (fun t _ => t)
                (fun _ => ∅) (fun _ => Ok [svm]) (fun _ _ => None)
                (mkSchema TypeSet true false false None)
                (mkSchema TypeMap false true false
                   (Some (ElemSchema (mkSchema TypeString false false false None)))) in
  let w := mkWorld (mkHeap ∅) (mkResourceData (mkConfig None []) []) in
  (read (mkAWSClient unit unit tt tt) w).1 = Panicked set_item_panic.
Proof.
  intros svm read w. eapply proj1.
  eapply read_empty_reason_panics with (svm := svm) (t := tt)
    (r := fsx.mkLifecycleTransitionReason None); reflexivity.
Defined.

Lemma schema_read_only_witness :
  let s := mkSchema TypeSet false true false (Some (ElemResource [("message", computed_string)])) in
  schema_Computed s = true /\ read_only s = true.
Proof.
  cbv zeta. apply (schema_read_only (mkSchema TypeSet true false false None)
           (mkSchema TypeMap false true false
              (Some (ElemSchema (mkSchema TypeString false false false None))))
           "lifecycle_transition_reason"
           (mkSchema TypeSet false true false (Some (ElemResource [("message", computed_string)])))).
  - unfold dataSourceONTAPStorageVirtualMachine_Schema.
    repeat constructor.
  - apply (bool_decide_unpack _). vm_compute. reflexivity.
Defined.

Lemma flattenLifecycleTransitionReason_keys_declared_witness :
  "message" ∈ elem_fields (mkSchema TypeSet false true false
                     (Some (ElemResource [("message", computed_string)]))).
Proof.
  apply (flattenLifecycleTransitionReason_keys_declared
           (mkSchema TypeSet true false false None)
           (mkSchema TypeMap false true false
              (Some (ElemSchema (mkSchema TypeString false false false None))))
           (Some (fsx.mkLifecycleTransitionReason (Some "created"))) (mkHeap ∅)
           [Some {["message" := "created"]}] {["message" := "created"]}).
  - vm_compute. reflexivity.
  - constructor.
  - unfold dataSourceONTAPStorageVirtualMachine_Schema. repeat constructor.
  - rewrite dom_singleton_L. apply elem_of_singleton. reflexivity.
Defined.

Lemma describe_input_no_id_witness :
  fsx.StorageVirtualMachineIds
    (describe_input (mkResourceData (mkConfig (Some "")
       [mkFilterConfig "file-system-id" ["fs-0123456789abcdef0"]]) [])) = None.
Proof. apply describe_input_no_id. right. reflexivity. Defined.
